(** * Scene conversion helpers of the Blender add-on: [scripts/tools.py]

    The module hands cameras, meshes and lights of the host (Blender, the
    [bpy] API) to the viewer library ([pylib.GlslViewer], imported as [gl]).
    This file embeds the four functions of [tools.py] and proves what they
    emit.

    Layout: Python values and effects; the host objects the functions read;
    the viewer objects they build; the functions themselves; the vocabulary
    of the statements; sample scenes; lemmas and theorems. *)

From Stdlib Require Import ZArith List String Bool Lia.
From Stdlib Require Import Floats.SpecFloat.
From Stdlib Require Import Sorting.Permutation.
Import ListNotations.

Set Implicit Arguments.

(* ================================================================== *)
(** ** Python values *)

(** A Python [float] is an IEEE-754 binary64 value; [spec_float] is the
    inductive description of those values (zeros and infinities with a
    sign, one NaN, finite numbers [(-1)^s * m * 2^e]). Unary minus flips
    the sign and is exact. *)
Definition float : Type := spec_float.

Definition fneg (a : float) : float := SFopp a.

(** The binary64 value nearest to [m * 2^e]. *)
Definition binary64 (m e : Z) : float := binary_normalize 53 1024 m e false.

Definition float_of_Z (n : Z) : float := binary64 n 0.

(** Sequences of a fixed length (a 4x4 matrix, a 3-vector, a uv pair, the
    [img_dims] pair) and their constant subscripts. An index of a sequence
    of length [n] is one of [0 .. n-1], so a subscript cannot be out of
    range. *)
Fixpoint index (n : nat) : Type :=
  match n with
  | O => Empty_set
  | S n' => option (index n')
  end.

Fixpoint tuple (A : Type) (n : nat) : Type :=
  match n with
  | O => unit
  | S n' => (A * tuple A n')%type
  end.

Fixpoint getitem {A : Type} {n : nat} : tuple A n -> index n -> A :=
  match n with
  | O => fun _ i => match i with end
  | S n' => fun t i =>
      match i with
      | None => fst t
      | Some j => getitem (snd t) j
      end
  end.

Fixpoint index_to_nat {n : nat} : index n -> nat :=
  match n with
  | O => fun i => match i with end
  | S n' => fun i =>
      match i with
      | None => O
      | Some j => S (index_to_nat j)
      end
  end.

Declare Scope index_scope.
Delimit Scope index_scope with index.
Notation "0" := (@None _) (only parsing) : index_scope.
Notation "1" := (Some (@None _)) (only parsing) : index_scope.
Notation "2" := (Some (Some (@None _))) (only parsing) : index_scope.
Notation "3" := (Some (Some (Some (@None _)))) (only parsing) : index_scope.
Notation "v .[ i ]" := (getitem v i%index)
  (at level 1, left associativity, format "v .[ i ]").

Definition pair_ {A : Type} (a b : A) : tuple A 2 := (a, (b, tt)).
Definition triple {A : Type} (a b c : A) : tuple A 3 := (a, (b, (c, tt))).
Definition quad {A : Type} (a b c d : A) : tuple A 4 := (a, (b, (c, (d, tt)))).

Definition Vec2 : Type := tuple float 2.
Definition Vec3 : Type := tuple float 3.
Definition Mat4 : Type := tuple (tuple float 4) 4.

(* ================================================================== *)
(** ** Exceptions, the interpreter's ambient state, and the [Py] monad *)

Inductive exn : Type :=
| IndexError
| ValueError
| TypeError
| OSError (errno : string)
| OtherError (name : string).

Inductive result (A : Type) : Type :=
| Ok (a : A)
| Raise (e : exn).
Arguments Ok {A} a.
Arguments Raise {A} e.

(** [bpy.context.scene.render]: the render settings of the current scene. *)
Record RenderSettings : Type := {
  resolution_x : Z;
  resolution_y : Z;
  pixel_aspect_x : float;
  pixel_aspect_y : float
}.

(** Everything a call can reach that is not one of its arguments: the
    host's current scene, the [bpy.path.abspath] expansion (it depends on
    the open .blend file), the file system as [open(path, 'r')] sees it
    ([None]: the open succeeds), whether standard output takes a line
    ([None]: the line is written; otherwise the exception of the write,
    as when the stream has been closed or cannot encode the text), the
    handles
    currently open, and what has been printed. *)
Record World : Type := {
  render : RenderSettings;
  abspath : string -> result string;
  fs_open_error : string -> option exn;
  stdout_error : string -> option exn;
  open_handles : list string;
  stdout : list string
}.

Definition Py (A : Type) : Type := World -> result A * World.

Definition ret {A : Type} (a : A) : Py A := fun w => (Ok a, w).

Definition raise {A : Type} (e : exn) : Py A := fun w => (Raise e, w).

Definition bind {A B : Type} (c : Py A) (k : A -> Py B) : Py B :=
  fun w =>
    match c w with
    | (Ok a, w') => k a w'
    | (Raise e, w') => (Raise e, w')
    end.

Declare Scope py_scope.
Delimit Scope py_scope with py.
Notation "x <- c ;; k" := (bind c (fun x => k))
  (at level 100, c at next level, right associativity) : py_scope.
Notation "c ;; k" := (bind c (fun _ => k))
  (at level 100, right associativity) : py_scope.
Local Open Scope py_scope.

(** A host call that returns or raises, without touching the world. *)
Definition host {A : Type} (r : result A) : Py A := fun w => (r, w).

(** [try: body / except: handler] with a bare [except], which catches
    every exception. *)
Definition try_except {A : Type} (body handler : Py A) : Py A :=
  fun w =>
    match body w with
    | (Ok a, w') => (Ok a, w')
    | (Raise _, w') => handler w'
    end.

(** [for a in l: s = body s a], where the body may raise. *)
Fixpoint for_each {A S : Type} (l : list A) (body : S -> A -> Py S) (s : S)
  : Py S :=
  match l with
  | [] => ret s
  | a :: l' => s' <- body s a ;; for_each l' body s'
  end.

(** [range(n)] *)
Definition range (n : nat) : list nat := seq 0 n.

(** [print(line)]: the line is written to standard output, or the write
    raises and nothing is written. *)
Definition print (line : string) : Py unit :=
  fun w =>
    match stdout_error w line with
    | Some e => (Raise e, w)
    | None =>
        (Ok tt,
         {| render := render w; abspath := abspath w;
            fs_open_error := fs_open_error w;
            stdout_error := stdout_error w;
            open_handles := open_handles w;
            stdout := stdout w ++ [line] |})
    end.

(** [bpy.context.scene.render] *)
Definition bpy_context_scene_render : Py RenderSettings :=
  fun w => (Ok (render w), w).

(** [bpy.path.abspath(filename)] *)
Definition bpy_path_abspath (filename : string) : Py string :=
  fun w => (abspath w filename, w).

(** [open(path, 'r')]: a handle on [path] is open afterwards, or the open
    raises and nothing is open that was not before. *)
Definition open_r (path : string) : Py string :=
  fun w =>
    match fs_open_error w path with
    | Some e => (Raise e, w)
    | None =>
        (Ok path,
         {| render := render w; abspath := abspath w;
            fs_open_error := fs_open_error w;
            stdout_error := stdout_error w;
            open_handles := path :: open_handles w;
            stdout := stdout w |})
    end.

Fixpoint release (h : string) (hs : list string) : list string :=
  match hs with
  | [] => []
  | h' :: hs' => if String.eqb h h' then hs' else h' :: release h hs'
  end.

(** [file.close()] on a handle opened for reading: the handle is released;
    closing a file that was only read does not raise. *)
Definition close (file : string) : Py unit :=
  fun w =>
    (Ok tt,
     {| render := render w; abspath := abspath w;
        fs_open_error := fs_open_error w;
        stdout_error := stdout_error w;
        open_handles := release file (open_handles w);
        stdout := stdout w |}).

(* ================================================================== *)
(** ** The host: the objects of [bpy] the functions read

    A host object is modelled by the attributes the code reads and by the
    outcome of the methods it calls on it. *)

Module bpy.

(** [mathutils.Matrix], 4x4, addressed [m[row][col]]. [inverted()]
  raises [ValueError] on a singular matrix; [inverted_safe()] never
  raises. *)
Module Matrix.
Record t : Type := {
  entries : Mat4;
  inverted : result Mat4;
  inverted_safe : Mat4
}.

Definition transposed (m : Mat4) : Mat4 :=
  quad (quad m.[0].[0] m.[1].[0] m.[2].[0] m.[3].[0])
       (quad m.[0].[1] m.[1].[1] m.[2].[1] m.[3].[1])
       (quad m.[0].[2] m.[1].[2] m.[2].[2] m.[3].[2])
       (quad m.[0].[3] m.[1].[3] m.[2].[3] m.[3].[3]).

Definition to_3x3 (m : Mat4) : tuple (tuple float 3) 3 :=
  triple (triple m.[0].[0] m.[0].[1] m.[0].[2])
         (triple m.[1].[0] m.[1].[1] m.[1].[2])
         (triple m.[2].[0] m.[2].[1] m.[2].[2]).
End Matrix.

(** [bpy.types.RegionView3D]: the state of a 3D viewport. *)
Module RegionView3D.
Record t : Type := {
  window_matrix : Matrix.t;
  view_matrix : Matrix.t
}.
End RegionView3D.

Module MeshVertex.
Record t : Type := {
  co : Vec3;
  normal : Vec3
}.
End MeshVertex.

Module MeshLoopTriangle.
Record t : Type := {
  vertices : tuple Z 3
}.
End MeshLoopTriangle.

Module MeshUVLoop.
Record t : Type := {
  uv : Vec2
}.
End MeshUVLoop.

Module MeshUVLoopLayer.
Record t : Type := {
  data : list MeshUVLoop.t
}.
End MeshUVLoopLayer.

(** [bpy.types.Mesh], the datablock. [loop_triangles] is a cache that
  [calc_loop_triangles()] refreshes in place with the triangulation of
  the faces; [triangulation] is what the host computes then.
  [uv_layers_active] is [uv_layers.active], [None] when the mesh has
  no UV layer. *)
Module Mesh.
Record t : Type := {
  vertices : list MeshVertex.t;
  loop_triangles : list MeshLoopTriangle.t;
  triangulation : list MeshLoopTriangle.t;
  uv_layers_active : option MeshUVLoopLayer.t
}.

Definition calc_loop_triangles (me : t) : t :=
  {| vertices := vertices me;
     loop_triangles := triangulation me;
     triangulation := triangulation me;
     uv_layers_active := uv_layers_active me |}.
End Mesh.

(** [bpy.types.Object] with a datablock of type [D]. The method
  [calc_matrix_camera(x, y, scale_x, scale_y)] is the host's camera
  projection formula. *)
Module Object.
Record t (D : Type) : Type := {
  matrix_world : Matrix.t;
  location : Vec3;
  calc_matrix_camera : Z -> Z -> float -> float -> result Mat4;
  data : D
}.
End Object.

End bpy.

(** The values [bl2veraCamera] can be handed as [source], as its two
    [isinstance] tests tell them apart. Any other value carries the
    outcome of formatting it in an f-string: the text of [str(source)], or
    the exception its [__format__] or [__str__] raises. *)
Inductive Source : Type :=
| IsRegionView3D (source : bpy.RegionView3D.t)
| IsObject (D : Type) (source : bpy.Object.t D)
| IsOther (formatted : result string).
Arguments IsObject {D} source.

(** [np.array(mat)]: the same 4x4 entries as an array. *)
Definition np_array (mat : Mat4) : Mat4 := mat.

(* ================================================================== *)
(** ** The viewer library: the objects of [pylib.GlslViewer] *)

Module gl.

(** Modelled from the spec: the compiled viewer binding [pylib] is not
  part of the sources. The spec lists, for Camera, two transform
  setters taking 16 scalar arguments each, a viewport-size setter and a
  scale setter. A camera is recorded as what each setter last received,
  the 16 scalars in argument order; [None] is the library's default. *)
Record Camera : Type := {
  transform_args : option (list float);
  projection_args : option (list float);
  viewport : option (Z * Z);
  scale : option float
}.

Definition new_Camera : Camera :=
  {| transform_args := None; projection_args := None;
     viewport := None; scale := None |}.

Definition setTransformMatrix (cam : Camera)
    (a0 a1 a2 a3 a4 a5 a6 a7 a8 a9 a10 a11 a12 a13 a14 a15 : float)
  : Camera :=
  {| transform_args :=
       Some [a0; a1; a2; a3; a4; a5; a6; a7;
             a8; a9; a10; a11; a12; a13; a14; a15];
     projection_args := projection_args cam;
     viewport := viewport cam;
     scale := scale cam |}.

Definition setProjection (cam : Camera)
    (a0 a1 a2 a3 a4 a5 a6 a7 a8 a9 a10 a11 a12 a13 a14 a15 : float)
  : Camera :=
  {| transform_args := transform_args cam;
     projection_args :=
       Some [a0; a1; a2; a3; a4; a5; a6; a7;
             a8; a9; a10; a11; a12; a13; a14; a15];
     viewport := viewport cam;
     scale := scale cam |}.

Definition setViewport (cam : Camera) (width height : Z) : Camera :=
  {| transform_args := transform_args cam;
     projection_args := projection_args cam;
     viewport := Some (width, height);
     scale := scale cam |}.

Definition setScale (cam : Camera) (s : float) : Camera :=
  {| transform_args := transform_args cam;
     projection_args := projection_args cam;
     viewport := viewport cam;
     scale := Some s |}.

(** Modelled from the spec: Mesh offers append-vertex, append-normal,
  append-texcoord, append-index, a vertex-count query and a trigger of
  the tangent computation. A mesh is recorded as the four arrays in
  append order and whether the tangent computation was triggered. *)
Record Mesh : Type := {
  vertices : list (float * float * float);
  normals : list (float * float * float);
  indices : list Z;
  texcoords : list (float * float);
  tangents_computed : bool
}.

Definition new_Mesh : Mesh :=
  {| vertices := []; normals := []; indices := []; texcoords := [];
     tangents_computed := false |}.

Definition addVertex (mesh : Mesh) (x y z : float) : Mesh :=
  {| vertices := vertices mesh ++ [(x, y, z)];
     normals := normals mesh;
     indices := indices mesh;
     texcoords := texcoords mesh;
     tangents_computed := tangents_computed mesh |}.

Definition addNormal (mesh : Mesh) (x y z : float) : Mesh :=
  {| vertices := vertices mesh;
     normals := normals mesh ++ [(x, y, z)];
     indices := indices mesh;
     texcoords := texcoords mesh;
     tangents_computed := tangents_computed mesh |}.

Definition addIndex (mesh : Mesh) (i : Z) : Mesh :=
  {| vertices := vertices mesh;
     normals := normals mesh;
     indices := indices mesh ++ [i];
     texcoords := texcoords mesh;
     tangents_computed := tangents_computed mesh |}.

Definition addTexCoord (mesh : Mesh) (u v : float) : Mesh :=
  {| vertices := vertices mesh;
     normals := normals mesh;
     indices := indices mesh;
     texcoords := texcoords mesh ++ [(u, v)];
     tangents_computed := tangents_computed mesh |}.

Definition getVerticesTotal (mesh : Mesh) : nat :=
    List.length (vertices mesh).

Definition computeTangents (mesh : Mesh) : Mesh :=
  {| vertices := vertices mesh;
     normals := normals mesh;
     indices := indices mesh;
     texcoords := texcoords mesh;
     tangents_computed := true |}.

(** Modelled from the spec: Light offers a position setter. *)
Record Light : Type := {
  position : option (float * float * float)
}.

Definition new_Light : Light := {| position := None |}.

Definition setPosition (light : Light) (x y z : float) : Light :=
  {| position := Some (x, y, z) |}.

End gl.


(* ================================================================== *)
(** ** [tools.py] *)

Definition RENDER_CAM_TYPE_ID : string := "render_camera_type".
Definition RENDER_CAM_TYPE_PERSPECTIVE : string := "perspective".
Definition RENDER_CAM_TYPE_SPHERICAL_QUADRILATERAL : string :=
  "spherical_quadrilateral".
Definition RENDER_CAM_TYPE_QUADRILATERAL_HEXAHEDRON : string :=
  "quadrilateral_hexahedron".

Definition bl2npMatrix (mat : Mat4) : Mat4 := np_array mat.

(** [bl2veraCamera(source, img_dims)]. The [if/elif/else] yields the two
    matrices, or nothing where the [else] branch returns [None] early. *)
Definition bl2veraCamera (source : Source) (img_dims : tuple Z 2)
  : Py (option gl.Camera) :=
  let cam := gl.new_Camera in
  matrices <-
    match source with
    | IsRegionView3D source =>
        let projection_matrix :=
          np_array (bpy.Matrix.entries (bpy.RegionView3D.window_matrix source)) in
        inv <- host (bpy.Matrix.inverted (bpy.RegionView3D.view_matrix source)) ;;
        let view_matrix := np_array inv in
        ret (Some (view_matrix, projection_matrix))
    | IsObject source =>
        render <- bpy_context_scene_render ;;
        view_matrix <-
          host (bpy.Matrix.inverted (bpy.Object.matrix_world source)) ;;
        projection_matrix <-
          host (bpy.Object.calc_matrix_camera source
                  (resolution_x render)
                  (resolution_y render)
                  (pixel_aspect_x render)
                  (pixel_aspect_y render)) ;;
        ret (Some (view_matrix, projection_matrix))
    | IsOther formatted =>
        str <- host formatted ;;
        print ("INVALID CAMERA SOURCE: " ++ str)%string ;;
        ret None
    end ;;
  match matrices with
  | None => ret None
  | Some (view_matrix, projection_matrix) =>
      let cam := gl.setTransformMatrix cam
        view_matrix.[0].[0] view_matrix.[2].[0] view_matrix.[1].[0] view_matrix.[3].[0]
        view_matrix.[0].[1] view_matrix.[2].[1] view_matrix.[1].[1] view_matrix.[3].[1]
        view_matrix.[0].[2] view_matrix.[2].[2] view_matrix.[1].[2] view_matrix.[3].[2]
        view_matrix.[0].[3] view_matrix.[2].[3] view_matrix.[1].[3] view_matrix.[3].[3]
      in
      let cam := gl.setProjection cam
        projection_matrix.[0].[0] projection_matrix.[1].[0] projection_matrix.[2].[0] projection_matrix.[3].[0]
        projection_matrix.[0].[1] projection_matrix.[1].[1] projection_matrix.[2].[1] projection_matrix.[3].[1]
        projection_matrix.[0].[2] projection_matrix.[1].[2] projection_matrix.[2].[2] projection_matrix.[3].[2]
        projection_matrix.[0].[3] projection_matrix.[1].[3] projection_matrix.[2].[3] projection_matrix.[3].[3]
      in
      let cam := gl.setViewport cam img_dims.[0] img_dims.[1] in
      let cam := gl.setScale cam (binary64 1 (-1)) in
      ret (Some cam)
  end.

(** [bl2veraMesh(bl_mesh)]. [W] and [N] are computed and not used. The
    datablock [data] is [bl_mesh.data] after [calc_loop_triangles()] has
    refreshed it in place. *)
Definition bl2veraMesh (bl_mesh : bpy.Object.t bpy.Mesh.t) : Py gl.Mesh :=
  let mesh := gl.new_Mesh in
  let W := bpy.Object.matrix_world bl_mesh in
  let N :=
    bpy.Matrix.to_3x3 (bpy.Matrix.transposed (bpy.Matrix.inverted_safe W)) in
  let data := bpy.Mesh.calc_loop_triangles (bpy.Object.data bl_mesh) in
  let mesh :=
    fold_left
      (fun mesh v =>
         let p := bpy.MeshVertex.co v in
         let mesh := gl.addVertex mesh (fneg p.[0]) (fneg p.[1]) (fneg p.[2]) in
         let n := bpy.MeshVertex.normal v in
         gl.addNormal mesh (fneg n.[0]) (fneg n.[1]) (fneg n.[2]))
      (bpy.Mesh.vertices data) mesh in
  let mesh :=
    fold_left
      (fun mesh tri =>
         let mesh := gl.addIndex mesh (bpy.MeshLoopTriangle.vertices tri).[0] in
         let mesh := gl.addIndex mesh (bpy.MeshLoopTriangle.vertices tri).[1] in
         gl.addIndex mesh (bpy.MeshLoopTriangle.vertices tri).[2])
      (bpy.Mesh.loop_triangles data) mesh in
  match bpy.Mesh.uv_layers_active data with
  | Some active =>
      mesh <-
        for_each (range (gl.getVerticesTotal mesh))
          (fun mesh i =>
             match nth_error (bpy.MeshUVLoopLayer.data active) i with
             | None => raise IndexError
             | Some loop =>
                 let uv := bpy.MeshUVLoop.uv loop in
                 ret (gl.addTexCoord mesh uv.[0] uv.[1])
             end)
          mesh ;;
      let mesh := gl.computeTangents mesh in
      ret mesh
  | None => ret mesh
  end.

(** [bl2veraLight(bl_light)]. [W] is fetched and not used. *)
Definition bl2veraLight {D : Type} (bl_light : bpy.Object.t D) : Py gl.Light :=
  let W := bpy.Object.matrix_world bl_light in
  let loc := bpy.Object.location bl_light in
  let light := gl.new_Light in
  let light := gl.setPosition light (fneg loc.[0]) (fneg loc.[2]) (fneg loc.[1]) in
  ret light.

(** [file_exist(filename)] *)
Definition file_exist (filename : string) : Py bool :=
  try_except
    (path <- bpy_path_abspath filename ;;
     file <- open_r path ;;
     close file ;;
     ret true)
    (ret false).

(* ================================================================== *)
(** ** Vocabulary of the statements *)

(** The [k]-th group of four among the 16 arguments of a setter. *)
Definition group (args : list float) (k : index 4) : list float :=
  firstn 4 (skipn (4 * index_to_nat k) args).

(** Row [r] of [m] with its columns 1 and 2 exchanged. *)
Definition row_columns_swapped (m : Mat4) (r : index 4) : list float :=
  [m.[r].[0]; m.[r].[2]; m.[r].[1]; m.[r].[3]].

(** Column [k] of [m], from row 0 to row 3. *)
Definition column (m : Mat4) (k : index 4) : list float :=
  [m.[0].[k]; m.[1].[k]; m.[2].[k]; m.[3].[k]].

(** Column [k] of [m] with its rows 1 and 2 exchanged. *)
Definition column_rows_swapped (m : Mat4) (k : index 4) : list float :=
  [m.[0].[k]; m.[2].[k]; m.[1].[k]; m.[3].[k]].

Arguments group args k%_index.
Arguments row_columns_swapped m r%_index.
Arguments column m k%_index.
Arguments column_rows_swapped m k%_index.

(** The entries of [m] row after row. *)
Definition row_major (m : Mat4) : list float :=
  [m.[0].[0]; m.[0].[1]; m.[0].[2]; m.[0].[3];
   m.[1].[0]; m.[1].[1]; m.[1].[2]; m.[1].[3];
   m.[2].[0]; m.[2].[1]; m.[2].[2]; m.[2].[3];
   m.[3].[0]; m.[3].[1]; m.[3].[2]; m.[3].[3]].

(** Sixteen emitted values put back into a matrix, one group per row, with
    the inverse column mapping: columns 1 and 2 are swapped back. *)
Definition reassemble (args : list float) : option Mat4 :=
  match args with
  | [a0; a1; a2; a3; a4; a5; a6; a7; a8; a9; a10; a11; a12; a13; a14; a15] =>
      Some (quad (quad a0 a2 a1 a3)
                 (quad a4 a6 a5 a7)
                 (quad a8 a10 a9 a11)
                 (quad a12 a14 a13 a15))
  | _ => None
  end.

Definition Zquad (a b c d : Z) : tuple Z 4 := quad a b c d.

Definition matrix_of_Z (r0 r1 r2 r3 : tuple Z 4) : Mat4 :=
  let row (r : tuple Z 4) :=
    quad (float_of_Z r.[0]) (float_of_Z r.[1])
         (float_of_Z r.[2]) (float_of_Z r.[3]) in
  quad (row r0) (row r1) (row r2) (row r3).

Definition identity : Mat4 :=
  matrix_of_Z (Zquad 1 0 0 0) (Zquad 0 1 0 0) (Zquad 0 0 1 0) (Zquad 0 0 0 1).

(** The two matrices the converter reads from a recognized source in a
    given world: the inverted view (or world) matrix, and the window
    matrix or the host's camera projection at the scene's render
    settings. *)
Inductive camera_reads : Source -> World -> Mat4 -> Mat4 -> Prop :=
| reads_region (rv : bpy.RegionView3D.t) (w : World) (vm : Mat4) :
    bpy.Matrix.inverted (bpy.RegionView3D.view_matrix rv) = Ok vm ->
    camera_reads (IsRegionView3D rv) w vm
      (bpy.Matrix.entries (bpy.RegionView3D.window_matrix rv))
| reads_object (D : Type) (ob : bpy.Object.t D) (w : World) (vm pm : Mat4) :
    bpy.Matrix.inverted (bpy.Object.matrix_world ob) = Ok vm ->
    bpy.Object.calc_matrix_camera ob
      (resolution_x (render w)) (resolution_y (render w))
      (pixel_aspect_x (render w)) (pixel_aspect_y (render w)) = Ok pm ->
    camera_reads (IsObject ob) w vm pm.

(** The three coordinates of a host vector, and negation on all three
    axes. *)
Definition coords (v : Vec3) : float * float * float :=
  (v.[0], v.[1], v.[2]).

Definition neg3 (p : float * float * float) : float * float * float :=
  let '(x, y, z) := p in (fneg x, fneg y, fneg z).

Definition uv_pair (loop : bpy.MeshUVLoop.t) : float * float :=
  ((bpy.MeshUVLoop.uv loop).[0], (bpy.MeshUVLoop.uv loop).[1]).

Definition triangle_indices (tri : bpy.MeshLoopTriangle.t) : list Z :=
  [(bpy.MeshLoopTriangle.vertices tri).[0];
   (bpy.MeshLoopTriangle.vertices tri).[1];
   (bpy.MeshLoopTriangle.vertices tri).[2]].

(** The per-corner data of the active UV layer, if there is one, has an
    entry at every vertex index. *)
Definition uv_covers_vertices (me : bpy.Mesh.t) : bool :=
  match bpy.Mesh.uv_layers_active me with
  | None => true
  | Some active =>
      List.length (bpy.Mesh.vertices me)
        <=? List.length (bpy.MeshUVLoopLayer.data active)
  end.

(** The same object with another world matrix, datablock or UV layer. *)
Definition with_matrix_world {D : Type} (ob : bpy.Object.t D)
    (W : bpy.Matrix.t) : bpy.Object.t D :=
  {| bpy.Object.matrix_world := W;
     bpy.Object.location := bpy.Object.location ob;
     bpy.Object.calc_matrix_camera := bpy.Object.calc_matrix_camera ob;
     bpy.Object.data := bpy.Object.data ob |}.

Definition with_data {D E : Type} (ob : bpy.Object.t D) (d : E)
  : bpy.Object.t E :=
  {| bpy.Object.matrix_world := bpy.Object.matrix_world ob;
     bpy.Object.location := bpy.Object.location ob;
     bpy.Object.calc_matrix_camera := bpy.Object.calc_matrix_camera ob;
     bpy.Object.data := d |}.

Definition with_uv_layer (me : bpy.Mesh.t)
    (layer : option bpy.MeshUVLoopLayer.t) : bpy.Mesh.t :=
  {| bpy.Mesh.vertices := bpy.Mesh.vertices me;
     bpy.Mesh.loop_triangles := bpy.Mesh.loop_triangles me;
     bpy.Mesh.triangulation := bpy.Mesh.triangulation me;
     bpy.Mesh.uv_layers_active := layer |}.

(** The mesh [bl2veraMesh] builds when no subscript faults. *)
Definition converted_mesh (me : bpy.Mesh.t) : gl.Mesh :=
  {| gl.vertices :=
       map (fun v => neg3 (coords (bpy.MeshVertex.co v))) (bpy.Mesh.vertices me);
     gl.normals :=
       map (fun v => neg3 (coords (bpy.MeshVertex.normal v)))
           (bpy.Mesh.vertices me);
     gl.indices := flat_map triangle_indices (bpy.Mesh.triangulation me);
     gl.texcoords :=
       match bpy.Mesh.uv_layers_active me with
       | None => []
       | Some active =>
           map uv_pair
               (firstn (List.length (bpy.Mesh.vertices me))
                       (bpy.MeshUVLoopLayer.data active))
       end;
     gl.tangents_computed :=
       match bpy.Mesh.uv_layers_active me with
       | None => false
       | Some _ => true
       end |}.

(** The world after the camera converter has reported a source it does
    not recognize. *)
Definition reported (w : World) (str : string) : World :=
  {| render := render w; abspath := abspath w;
     fs_open_error := fs_open_error w;
     stdout_error := stdout_error w;
     open_handles := open_handles w;
     stdout := stdout w ++ [("INVALID CAMERA SOURCE: " ++ str)%string] |}.

(* ================================================================== *)
(** ** Sample scenes *)

Definition landscape : RenderSettings :=
  {| resolution_x := 1920; resolution_y := 1080;
     pixel_aspect_x := float_of_Z 1; pixel_aspect_y := float_of_Z 1 |}.

Definition portrait : RenderSettings :=
  {| resolution_x := 1080; resolution_y := 1920;
     pixel_aspect_x := float_of_Z 1; pixel_aspect_y := float_of_Z 1 |}.

(** A session in which paths expand to themselves, one shader file can
    be opened and standard output takes every line. *)
Definition session (settings : RenderSettings) : World :=
  {| render := settings;
     abspath := fun filename => Ok filename;
     fs_open_error := fun path =>
       if String.eqb path "/tmp/default.frag" then None
       else Some (OSError "ENOENT");
     stdout_error := fun line => None;
     open_handles := [];
     stdout := [] |}.

(** A host matrix whose inverse is known. *)
Definition matrix_with_inverse (m inv : Mat4) : bpy.Matrix.t :=
  {| bpy.Matrix.entries := m;
     bpy.Matrix.inverted := Ok inv;
     bpy.Matrix.inverted_safe := inv |}.

(** The identity as the host's cofactor inversion returns it for the
    identity: the zeros at the odd places, where the cofactor is negated,
    are negative zeros. *)
Definition identity_inverted : Mat4 :=
  let one := float_of_Z 1 in
  let zero := S754_zero false in
  let nzero := S754_zero true in
  quad (quad one nzero zero nzero)
       (quad nzero one nzero zero)
       (quad zero nzero one nzero)
       (quad nzero zero nzero one).

Definition identity_matrix : bpy.Matrix.t :=
  matrix_with_inverse identity identity_inverted.

(** The translation by (1, 2, 3) and its inverse. *)
Definition translation : Mat4 :=
  matrix_of_Z (Zquad 1 0 0 1) (Zquad 0 1 0 2) (Zquad 0 0 1 3) (Zquad 0 0 0 1).

Definition translation_back : Mat4 :=
  matrix_of_Z (Zquad 1 0 0 (-1)) (Zquad 0 1 0 (-2)) (Zquad 0 0 1 (-3))
              (Zquad 0 0 0 1).

(** A perspective window matrix (rows 2 and 3 are not symmetric) and its
    inverse. *)
Definition perspective : Mat4 :=
  matrix_of_Z (Zquad 1 0 0 0) (Zquad 0 1 0 0) (Zquad 0 0 (-1) (-2))
              (Zquad 0 0 (-1) 0).

Definition perspective_back : Mat4 :=
  quad (quad (float_of_Z 1) (float_of_Z 0) (float_of_Z 0) (float_of_Z 0))
       (quad (float_of_Z 0) (float_of_Z 1) (float_of_Z 0) (float_of_Z 0))
       (quad (float_of_Z 0) (float_of_Z 0) (float_of_Z 0) (float_of_Z (-1)))
       (quad (float_of_Z 0) (float_of_Z 0) (binary64 (-1) (-1)) (binary64 1 (-1))).

Definition viewport_region : bpy.RegionView3D.t :=
  {| bpy.RegionView3D.window_matrix :=
       matrix_with_inverse perspective perspective_back;
     bpy.RegionView3D.view_matrix :=
       matrix_with_inverse translation translation_back |}.

Definition identity_region : bpy.RegionView3D.t :=
  {| bpy.RegionView3D.window_matrix := identity_matrix;
     bpy.RegionView3D.view_matrix := identity_matrix |}.

(** [calc_matrix_camera] as the host answers a call with four positional
    numbers: its first parameter is the dependency graph, so the call
    raises TypeError. *)
Definition refuses_positional_numbers (x y : Z) (scale_x scale_y : float)
  : result Mat4 :=
  Raise TypeError.

Definition vector_of_Z (x y z : Z) : Vec3 :=
  triple (float_of_Z x) (float_of_Z y) (float_of_Z z).

(** A scene object used as camera. *)
Definition scene_camera : bpy.Object.t unit :=
  {| bpy.Object.matrix_world := matrix_with_inverse translation translation_back;
     bpy.Object.location := vector_of_Z 1 2 3;
     bpy.Object.calc_matrix_camera := refuses_positional_numbers;
     bpy.Object.data := tt |}.

Definition point_light : bpy.Object.t unit :=
  {| bpy.Object.matrix_world := matrix_with_inverse translation translation_back;
     bpy.Object.location := vector_of_Z 1 2 3;
     bpy.Object.calc_matrix_camera := refuses_positional_numbers;
     bpy.Object.data := tt |}.

(** Three vertices with positive, negative, zero and fractional
    coordinates, and the single triangle (2, 0, 1). *)
Definition three_vertices : list bpy.MeshVertex.t :=
  [ {| bpy.MeshVertex.co := vector_of_Z 1 (-2) 0;
       bpy.MeshVertex.normal := vector_of_Z 0 0 1 |};
    {| bpy.MeshVertex.co := triple (binary64 1 (-1)) (float_of_Z 0) (binary64 (-3) (-2));
       bpy.MeshVertex.normal := vector_of_Z 0 1 0 |};
    {| bpy.MeshVertex.co := vector_of_Z 3 4 5;
       bpy.MeshVertex.normal := vector_of_Z (-1) 0 0 |} ].

Definition triangle_2_0_1 : bpy.MeshLoopTriangle.t :=
  {| bpy.MeshLoopTriangle.vertices := triple 2%Z 0%Z 1%Z |}.

Definition uv_at (u v : Z) : bpy.MeshUVLoop.t :=
  {| bpy.MeshUVLoop.uv := pair_ (float_of_Z u) (float_of_Z v) |}.

Definition mesh_object (me : bpy.Mesh.t) : bpy.Object.t bpy.Mesh.t :=
  {| bpy.Object.matrix_world := matrix_with_inverse translation translation_back;
     bpy.Object.location := vector_of_Z 1 2 3;
     bpy.Object.calc_matrix_camera := refuses_positional_numbers;
     bpy.Object.data := me |}.

(** The triangle without a UV layer; its triangle cache is stale. *)
Definition bare_triangle : bpy.Mesh.t :=
  {| bpy.Mesh.vertices := three_vertices;
     bpy.Mesh.loop_triangles := [];
     bpy.Mesh.triangulation := [triangle_2_0_1];
     bpy.Mesh.uv_layers_active := None |}.

(** The triangle with a UV layer: one entry per corner. *)
Definition textured_triangle : bpy.Mesh.t :=
  with_uv_layer bare_triangle
    (Some {| bpy.MeshUVLoopLayer.data := [uv_at 0 0; uv_at 1 0; uv_at 0 1] |}).

(** Three loose vertices, no face: the UV layer has no corner at all. *)
Definition loose_vertices : bpy.Mesh.t :=
  {| bpy.Mesh.vertices := three_vertices;
     bpy.Mesh.loop_triangles := [];
     bpy.Mesh.triangulation := [];
     bpy.Mesh.uv_layers_active := Some {| bpy.MeshUVLoopLayer.data := [] |} |}.

Definition img_640_480 : tuple Z 2 := pair_ 640%Z 480%Z.


(* ================================================================== *)
(** ** Loop bodies and results, named for the proofs *)

(** The body of [for v in bl_mesh.data.vertices]. *)
Definition vertex_body (mesh : gl.Mesh) (v : bpy.MeshVertex.t) : gl.Mesh :=
  let p := bpy.MeshVertex.co v in
  let mesh := gl.addVertex mesh (fneg p.[0]) (fneg p.[1]) (fneg p.[2]) in
  let n := bpy.MeshVertex.normal v in
  gl.addNormal mesh (fneg n.[0]) (fneg n.[1]) (fneg n.[2]).

(** The body of [for tri in bl_mesh.data.loop_triangles]. *)
Definition triangle_body (mesh : gl.Mesh) (tri : bpy.MeshLoopTriangle.t)
  : gl.Mesh :=
  let mesh := gl.addIndex mesh (bpy.MeshLoopTriangle.vertices tri).[0] in
  let mesh := gl.addIndex mesh (bpy.MeshLoopTriangle.vertices tri).[1] in
  gl.addIndex mesh (bpy.MeshLoopTriangle.vertices tri).[2].

(** The body of [for i in range(mesh.getVerticesTotal())]. *)
Definition uv_body (data : list bpy.MeshUVLoop.t) (mesh : gl.Mesh) (i : nat)
  : Py gl.Mesh :=
  match nth_error data i with
  | None => raise IndexError
  | Some loop =>
      let uv := bpy.MeshUVLoop.uv loop in
      ret (gl.addTexCoord mesh uv.[0] uv.[1])
  end.

(** The camera [bl2veraCamera] builds from the two matrices it has read. *)
Definition converted_camera (vm pm : Mat4) (img_dims : tuple Z 2) : gl.Camera :=
  {| gl.transform_args :=
       Some (column_rows_swapped vm 0 ++ column_rows_swapped vm 1
             ++ column_rows_swapped vm 2 ++ column_rows_swapped vm 3);
     gl.projection_args :=
       Some (column pm 0 ++ column pm 1 ++ column pm 2 ++ column pm 3);
     gl.viewport := Some (img_dims.[0], img_dims.[1]);
     gl.scale := Some (binary64 1 (-1)) |}.


(* ================================================================== *)
(** ** Further objects and scenes *)

(** The line the camera converter prints for an unrecognized source. *)
Definition report_line (str : string) : string :=
  ("INVALID CAMERA SOURCE: " ++ str)%string.

(** Python's [==] on floats: 0.0 and -0.0 are equal, NaN equals nothing. *)
Definition feq (a b : float) : bool := SFeqb a b.

(** Two lists, or two matrices, hold the same numbers place by place. *)
Fixpoint same_values (l1 l2 : list float) : bool :=
  match l1, l2 with
  | [], [] => true
  | a :: l1', b :: l2' => feq a b && same_values l1' l2'
  | _, _ => false
  end.

Definition same_numbers (m n : Mat4) : bool :=
  same_values (row_major m) (row_major n).

(** The view matrix of a recognized source before the converter inverts
    it: the viewport's view matrix or the object's world matrix. *)
Definition source_view (source : Source) : option Mat4 :=
  match source with
  | IsRegionView3D rv =>
      Some (bpy.Matrix.entries (bpy.RegionView3D.view_matrix rv))
  | IsObject ob => Some (bpy.Matrix.entries (bpy.Object.matrix_world ob))
  | IsOther _ => None
  end.

(** The same world after standard output has been closed: every write
    raises ValueError. *)
Definition closed_output (w : World) : World :=
  {| render := render w; abspath := abspath w;
     fs_open_error := fs_open_error w;
     stdout_error := fun line => Some ValueError;
     open_handles := open_handles w;
     stdout := stdout w |}.

(** An object that is neither a viewport state nor a scene object and
    whose [__str__] raises. *)
Definition unformattable : Source :=
  IsOther (Raise (OtherError "RuntimeError")).

(** The same object at another location. *)
Definition with_location {D : Type} (ob : bpy.Object.t D) (loc : Vec3)
  : bpy.Object.t D :=
  {| bpy.Object.matrix_world := bpy.Object.matrix_world ob;
     bpy.Object.location := loc;
     bpy.Object.calc_matrix_camera := bpy.Object.calc_matrix_camera ob;
     bpy.Object.data := bpy.Object.data ob |}.

(** The four arguments [calc_matrix_camera] is called with in world [w]. *)
Definition camera_projection {D : Type} (ob : bpy.Object.t D) (w : World)
  : result Mat4 :=
  bpy.Object.calc_matrix_camera ob
    (resolution_x (render w)) (resolution_y (render w))
    (pixel_aspect_x (render w)) (pixel_aspect_y (render w)).

(** The zero matrix: [inverted()] raises ValueError on it. The fallback of
    [inverted_safe()] is taken to be the identity. *)
Definition zero_matrix : bpy.Matrix.t :=
  {| bpy.Matrix.entries :=
       matrix_of_Z (Zquad 0 0 0 0) (Zquad 0 0 0 0) (Zquad 0 0 0 0)
                   (Zquad 0 0 0 0);
     bpy.Matrix.inverted := Raise ValueError;
     bpy.Matrix.inverted_safe := identity |}.

(** A viewport whose view matrix has collapsed to zero. *)
Definition collapsed_region : bpy.RegionView3D.t :=
  {| bpy.RegionView3D.window_matrix :=
       matrix_with_inverse perspective perspective_back;
     bpy.RegionView3D.view_matrix := zero_matrix |}.

(** The triangle with a UV layer of five corners, two more than it has
    vertices. *)
Definition overlong_layer : bpy.MeshUVLoopLayer.t :=
  {| bpy.MeshUVLoopLayer.data :=
       [uv_at 0 0; uv_at 1 0; uv_at 0 1; uv_at 1 1; uv_at 2 2] |}.

Definition three_corner_layer : bpy.MeshUVLoopLayer.t :=
  {| bpy.MeshUVLoopLayer.data := [uv_at 0 0; uv_at 1 0; uv_at 0 1] |}.

(** A mesh object that has a UV layer and no vertex yet. *)
Definition empty_mesh : bpy.Mesh.t :=
  {| bpy.Mesh.vertices := [];
     bpy.Mesh.loop_triangles := [];
     bpy.Mesh.triangulation := [];
     bpy.Mesh.uv_layers_active := Some {| bpy.MeshUVLoopLayer.data := [] |} |}.

(** A one-vertex mesh at the local coordinates of [point_light]. *)
Definition vertex_at_light : bpy.Mesh.t :=
  {| bpy.Mesh.vertices :=
       [ {| bpy.MeshVertex.co := vector_of_Z 1 2 3;
            bpy.MeshVertex.normal := vector_of_Z 0 0 1 |} ];
     bpy.Mesh.loop_triangles := [];
     bpy.Mesh.triangulation := [];
     bpy.Mesh.uv_layers_active := None |}.

(** Proof of a rearrangement of explicit lists, entry by entry. *)
Ltac place_head a r k :=
  lazymatch r with
  | a :: ?t => k (@nil float) t
  | ?b :: ?t => place_head a t ltac:(fun l1 l2 => k (b :: l1) l2)
  end.

Ltac rearranged :=
  repeat
    lazymatch goal with
    | |- Permutation [] [] => apply perm_nil
    | |- Permutation (?a :: ?l) ?r =>
        place_head a r
          ltac:(fun l1 l2 =>
                  change r with (l1 ++ a :: l2);
                  apply Permutation_cons_app; simpl app)
    end.

(* ================================================================== *)
(** ** Floats and subscripts *)

Lemma fneg_involutive (a : float) : fneg (fneg a) = a.
Proof.
  destruct a as [s | s | | s m e]; simpl; try reflexivity;
    rewrite negb_involutive; reflexivity.
Qed.

Lemma neg3_involutive (p : float * float * float) : neg3 (neg3 p) = p.
Proof.
  destruct p as [[x y] z]. unfold neg3.
  rewrite !fneg_involutive. reflexivity.
Qed.

Lemma index4_cases (P : index 4 -> Prop) :
  P 0%index -> P 1%index -> P 2%index -> P 3%index -> forall k, P k.
Proof.
  intros H0 H1 H2 H3 k.
  destruct k as [[[[[] | ] | ] | ] | ]; assumption.
Qed.

Lemma skipn_nth_error (A : Type) (l : list A) (i : nat) (x : A) :
  nth_error l i = Some x -> skipn i l = x :: skipn (S i) l.
Proof.
  revert i. induction l as [| y l IH]; intros [| i] H; simpl in *;
    try discriminate.
  - injection H as ->. reflexivity.
  - apply IH. exact H.
Qed.

Lemma release_head (h : string) (hs : list string) :
  release h (h :: hs) = hs.
Proof. simpl. rewrite String.eqb_refl. reflexivity. Qed.

(* ================================================================== *)
(** ** The loops of the mesh converter *)

Lemma vertex_loop (vs : list bpy.MeshVertex.t) (mesh : gl.Mesh) :
  fold_left vertex_body vs mesh =
  {| gl.vertices :=
       gl.vertices mesh
         ++ map (fun v => neg3 (coords (bpy.MeshVertex.co v))) vs;
     gl.normals :=
       gl.normals mesh
         ++ map (fun v => neg3 (coords (bpy.MeshVertex.normal v))) vs;
     gl.indices := gl.indices mesh;
     gl.texcoords := gl.texcoords mesh;
     gl.tangents_computed := gl.tangents_computed mesh |}.
Proof.
  revert mesh. induction vs as [| v vs IH]; intros mesh; simpl.
  - rewrite !app_nil_r. destruct mesh; reflexivity.
  - rewrite IH. simpl. rewrite <- !app_assoc. reflexivity.
Qed.

Lemma triangle_loop (ts : list bpy.MeshLoopTriangle.t) (mesh : gl.Mesh) :
  fold_left triangle_body ts mesh =
  {| gl.vertices := gl.vertices mesh;
     gl.normals := gl.normals mesh;
     gl.indices := gl.indices mesh ++ flat_map triangle_indices ts;
     gl.texcoords := gl.texcoords mesh;
     gl.tangents_computed := gl.tangents_computed mesh |}.
Proof.
  revert mesh. induction ts as [| tri ts IH]; intros mesh; simpl.
  - rewrite app_nil_r. destruct mesh; reflexivity.
  - rewrite IH. simpl. rewrite <- !app_assoc. reflexivity.
Qed.

(** The UV loop from index [a] on, when the layer reaches far enough. *)
Lemma uv_loop_ok (data : list bpy.MeshUVLoop.t) (n a : nat)
    (mesh : gl.Mesh) (w : World) :
  a + n <= List.length data ->
  for_each (seq a n) (uv_body data) mesh w =
  (Ok {| gl.vertices := gl.vertices mesh;
         gl.normals := gl.normals mesh;
         gl.indices := gl.indices mesh;
         gl.texcoords :=
           gl.texcoords mesh ++ map uv_pair (firstn n (skipn a data));
         gl.tangents_computed := gl.tangents_computed mesh |}, w).
Proof.
  revert a mesh. induction n as [| n IH]; intros a mesh Hn; simpl.
  - rewrite app_nil_r. destruct mesh; reflexivity.
  - destruct (nth_error data a) as [loop |] eqn:Hloop.
    + unfold bind, uv_body at 1. rewrite Hloop. simpl.
      rewrite IH by lia. simpl.
      rewrite (skipn_nth_error _ _ Hloop). simpl.
      rewrite <- app_assoc. reflexivity.
    + apply nth_error_None in Hloop. lia.
Qed.

(** The UV loop when the layer ends before the vertex array does. *)
Lemma uv_loop_fault (data : list bpy.MeshUVLoop.t) (n a : nat)
    (mesh : gl.Mesh) (w : World) :
  a <= List.length data -> List.length data < a + n ->
  for_each (seq a n) (uv_body data) mesh w = (Raise IndexError, w).
Proof.
  revert a mesh. induction n as [| n IH]; intros a mesh Ha Hn; simpl.
  - lia.
  - unfold bind, uv_body at 1.
    destruct (nth_error data a) as [loop |] eqn:Hloop; simpl.
    + assert (a < List.length data)
        by (apply nth_error_Some; rewrite Hloop; discriminate).
      apply IH; lia.
    + reflexivity.
Qed.

(** What a call of the mesh converter does, in full: it leaves the world
    alone and returns the converted mesh, unless the UV layer is shorter
    than the vertex array, in which case the subscript [data[i]] raises. *)
Lemma bl2veraMesh_run (bl_mesh : bpy.Object.t bpy.Mesh.t) (w : World) :
  bl2veraMesh bl_mesh w =
  (if uv_covers_vertices (bpy.Object.data bl_mesh)
   then Ok (converted_mesh (bpy.Object.data bl_mesh))
   else Raise IndexError, w).
Proof.
  unfold bl2veraMesh, uv_covers_vertices, converted_mesh.
  fold vertex_body triangle_body.
  rewrite vertex_loop, triangle_loop. simpl.
  destruct (bpy.Mesh.uv_layers_active (bpy.Object.data bl_mesh))
    as [active |]; [| reflexivity].
  unfold bind, range, gl.getVerticesTotal. simpl. rewrite length_map.
  destruct (Nat.leb_spec
              (List.length (bpy.Mesh.vertices (bpy.Object.data bl_mesh)))
              (List.length (bpy.MeshUVLoopLayer.data active))) as [Hle | Hlt].
  - rewrite (uv_loop_ok (bpy.MeshUVLoopLayer.data active)) by (simpl; lia).
    reflexivity.
  - rewrite (uv_loop_fault (bpy.MeshUVLoopLayer.data active)) by (simpl; lia).
    reflexivity.
Qed.

(* ================================================================== *)
(** ** The camera converter *)

(** What a call of the camera converter does on a recognized source whose
    host calls return: the world is left alone and the camera holds the
    columns of the two matrices, the viewport and the scale. *)
Lemma bl2veraCamera_run (source : Source) (img_dims : tuple Z 2) (w : World)
    (vm pm : Mat4) :
  camera_reads source w vm pm ->
  bl2veraCamera source img_dims w =
  (Ok (Some (converted_camera vm pm img_dims)), w).
Proof.
  intros [rv w' vm' Hinv | D ob w' vm' pm' Hinv Hproj];
    unfold bl2veraCamera, bind, host, bpy_context_scene_render, ret.
  - rewrite Hinv. reflexivity.
  - rewrite Hinv, Hproj. reflexivity.
Qed.

(** A recognized source whose host call raises makes the converter raise
    the same exception; no camera and no [None] comes back. *)
Lemma bl2veraCamera_region_raises (rv : bpy.RegionView3D.t)
    (img_dims : tuple Z 2) (w : World) (e : exn) :
  bpy.Matrix.inverted (bpy.RegionView3D.view_matrix rv) = Raise e ->
  bl2veraCamera (IsRegionView3D rv) img_dims w = (Raise e, w).
Proof.
  intros Hinv. unfold bl2veraCamera, bind, host. rewrite Hinv. reflexivity.
Qed.

(** C1 (as amended). On a recognized source, the sixteen arguments of the
    view setter are, group after group k = 0..3, column k of the inverted
    view matrix read with rows 1 and 2 exchanged:
    m[0][k], m[2][k], m[1][k], m[3][k]. The sixteen arguments of the
    projection setter are, group after group, column k of the projection
    matrix read in row order: m[0][k], m[1][k], m[2][k], m[3][k]. Every
    argument is an entry of the matrix as it is; nothing is negated. *)
Theorem camera_setters_receive_columns (source : Source)
    (img_dims : tuple Z 2) (w : World) (vm pm : Mat4) :
  camera_reads source w vm pm ->
  exists cam targs pargs,
    bl2veraCamera source img_dims w = (Ok (Some cam), w) /\
    gl.transform_args cam = Some targs /\
    gl.projection_args cam = Some pargs /\
    List.length targs = 16 /\
    List.length pargs = 16 /\
    forall k : index 4,
      group targs k = column_rows_swapped vm k /\
      group pargs k = column pm k.
Proof.
  intros Hreads.
  exists (converted_camera vm pm img_dims).
  eexists. eexists.
  split; [apply bl2veraCamera_run; exact Hreads |].
  split; [reflexivity |]. split; [reflexivity |].
  split; [reflexivity |]. split; [reflexivity |].
  apply index4_cases; split; reflexivity.
Qed.

(** The viewport with the translated view and the perspective window. *)
Lemma camera_setters_receive_columns_witness :
  camera_reads (IsRegionView3D viewport_region) (session landscape)
    translation_back perspective /\
  exists cam targs pargs,
    bl2veraCamera (IsRegionView3D viewport_region) img_640_480
      (session landscape) = (Ok (Some cam), session landscape) /\
    gl.transform_args cam = Some targs /\
    gl.projection_args cam = Some pargs /\
    List.length targs = 16 /\
    List.length pargs = 16 /\
    forall k : index 4,
      group targs k = column_rows_swapped translation_back k /\
      group pargs k = column perspective k.
Proof.
  assert (H : camera_reads (IsRegionView3D viewport_region) (session landscape)
                translation_back perspective).
  { exact (reads_region viewport_region (session landscape) eq_refl). }
  split; [exact H |].
  exact (camera_setters_receive_columns img_640_480 H).
Defined.

(** C1 (as stated) fails. For the viewport whose view matrix is the
    translation by (1, 2, 3), the first four arguments of the view setter
    are 1, 0, 0, 0; row 0 with columns 1 and 2 exchanged would be
    1, 0, 0, -1 for the inverted matrix and 1, 0, 0, 1 for the matrix
    itself. The third group of the projection setter is 0, 0, -1, -1; row
    2 of the window matrix with columns exchanged would be 0, -1, 0, -2. *)
Lemma camera_groups_are_not_swapped_rows :
  exists cam targs pargs,
    bl2veraCamera (IsRegionView3D viewport_region) img_640_480
      (session landscape) = (Ok (Some cam), session landscape) /\
    gl.transform_args cam = Some targs /\
    gl.projection_args cam = Some pargs /\
    group targs 0 <> row_columns_swapped translation_back 0 /\
    group targs 0 <> row_columns_swapped translation 0 /\
    group pargs 2 <> row_columns_swapped perspective 2.
Proof.
  eexists. eexists. eexists.
  split; [reflexivity |]. split; [reflexivity |]. split; [reflexivity |].
  repeat split; vm_compute; discriminate.
Qed.

(** C2 (as amended). Take a recognized source whose view matrix (the
    viewport's view matrix or the object's world matrix) is the identity,
    whose projection matrix (the window matrix or the host's camera
    projection) is the identity, and whose view matrix the host inverts to
    the identity; equality of matrices is equality of numbers, so a zero
    may come with either sign, as the host's inversion returns it. Then
    the sixteen values of the view setter, put back with columns 1 and 2
    swapped back, are the identity, and the sixteen values of the
    projection setter are the identity's entries row after row as they
    are, with no column to swap back. *)
Theorem identity_camera_values (source : Source) (img_dims : tuple Z 2)
    (w : World) (V vm pm : Mat4) :
  source_view source = Some V ->
  same_numbers V identity = true ->
  camera_reads source w vm pm ->
  same_numbers vm identity = true ->
  same_numbers pm identity = true ->
  exists cam targs pargs view,
    bl2veraCamera source img_dims w = (Ok (Some cam), w) /\
    gl.transform_args cam = Some targs /\
    gl.projection_args cam = Some pargs /\
    reassemble targs = Some view /\
    same_numbers view identity = true /\
    same_values pargs (row_major identity) = true.
Proof.
  intros _ _ Hreads Hvm Hpm.
  exists (converted_camera vm pm img_dims).
  eexists. eexists. eexists.
  split; [apply bl2veraCamera_run; exact Hreads |].
  split; [reflexivity |]. split; [reflexivity |].
  split; [reflexivity |].
  destruct vm as [[a0 [a1 [a2 [a3 []]]]] [[b0 [b1 [b2 [b3 []]]]]
    [[c0 [c1 [c2 [c3 []]]]] [[d0 [d1 [d2 [d3 []]]]] []]]]].
  destruct pm as [[p0 [p1 [p2 [p3 []]]]] [[q0 [q1 [q2 [q3 []]]]]
    [[r0 [r1 [r2 [r3 []]]]] [[s0 [s1 [s2 [s3 []]]]] []]]]].
  unfold same_numbers, row_major, column in *.
  cbn [getitem fst snd quad same_values app identity matrix_of_Z Zquad] in *.
  repeat match goal with
         | H : _ && _ = true |- _ =>
             apply andb_prop in H; destruct H as [? H]
         end.
  split; repeat (apply andb_true_intro; split); assumption.
Qed.

(** The viewport whose view and window matrices are the identity; its
    inverted view carries the host's negative zeros. *)
Lemma identity_camera_values_witness :
  source_view (IsRegionView3D identity_region) = Some identity /\
  same_numbers identity_inverted identity = true /\
  exists cam targs pargs view,
    bl2veraCamera (IsRegionView3D identity_region) img_640_480
      (session landscape) = (Ok (Some cam), session landscape) /\
    gl.transform_args cam = Some targs /\
    gl.projection_args cam = Some pargs /\
    reassemble targs = Some view /\
    same_numbers view identity = true /\
    same_values pargs (row_major identity) = true.
Proof.
  split; [reflexivity |]. split; [reflexivity |].
  exact (identity_camera_values (source := IsRegionView3D identity_region)
           img_640_480 (V := identity) eq_refl eq_refl
           (reads_region identity_region (session landscape) eq_refl)
           eq_refl eq_refl).
Defined.

(** C2 (as stated) fails for the projection. For the viewport whose view
    and window matrices are the identity, the projection setter receives
    1,0,0,0, 0,1,0,0, 0,0,1,0, 0,0,0,1; swapping columns 1 and 2 back
    turns the second group into 0,0,1,0, which is not row 1 of the
    identity, whatever the sign of a zero. *)
Lemma identity_projection_does_not_reassemble :
  exists cam pargs proj,
    bl2veraCamera (IsRegionView3D identity_region) img_640_480
      (session landscape) = (Ok (Some cam), session landscape) /\
    gl.projection_args cam = Some pargs /\
    reassemble pargs = Some proj /\
    proj <> identity /\
    same_numbers proj identity = false.
Proof.
  eexists. eexists. eexists.
  split; [reflexivity |]. split; [reflexivity |]. split; [reflexivity |].
  split; [vm_compute; discriminate | reflexivity].
Qed.

(** C7 (as amended). A source that is neither a viewport state nor a
    scene object, whose text the f-string formats and whose report line
    standard output takes, makes the converter print the line naming it
    and return [None]: the call returns, it does not raise, and nothing
    else in the world changes. [None] is the answer to such a source only:
    on a viewport state or a scene object the converter returns a camera
    or lets the host's exception through. *)
Theorem unrecognized_source_returns_none :
  (forall (str : string) (img_dims : tuple Z 2) (w : World),
     stdout_error w (report_line str) = None ->
     bl2veraCamera (IsOther (Ok str)) img_dims w = (Ok None, reported w str)) /\
  (forall (source : Source) (img_dims : tuple Z 2) (w : World),
     fst (bl2veraCamera source img_dims w) = Ok None ->
     exists str,
       source = IsOther (Ok str) /\ stdout_error w (report_line str) = None).
Proof.
  split.
  - intros str img_dims w Hout.
    unfold bl2veraCamera, bind, host, print. unfold report_line in Hout.
    rewrite Hout. reflexivity.
  - intros source img_dims w.
    destruct source as [rv | D ob | [str | e]];
      unfold bl2veraCamera, bind, host, bpy_context_scene_render, print.
    + destruct (bpy.Matrix.inverted (bpy.RegionView3D.view_matrix rv));
        simpl; discriminate.
    + destruct (bpy.Matrix.inverted (bpy.Object.matrix_world ob));
        [| simpl; discriminate].
      destruct (bpy.Object.calc_matrix_camera ob _ _ _ _);
        simpl; discriminate.
    + fold (report_line str).
      destruct (stdout_error w (report_line str)) eqn:Hout;
        simpl; [discriminate |].
      intros _. exists str. split; [reflexivity | exact Hout].
    + simpl. discriminate.
Qed.

(** A scene handed in as camera source. *)
Lemma unrecognized_source_returns_none_witness :
  bl2veraCamera (IsOther (Ok "<bpy_struct, Scene>"%string)) img_640_480
    (session landscape)
    = (Ok None, reported (session landscape) "<bpy_struct, Scene>") /\
  exists str,
    IsOther (Ok "<bpy_struct, Scene>"%string) = IsOther (Ok str) /\
    stdout_error (session landscape) (report_line str) = None.
Proof.
  split.
  - exact (proj1 unrecognized_source_returns_none
             "<bpy_struct, Scene>"%string img_640_480 (session landscape)
             eq_refl).
  - exact (proj2 unrecognized_source_returns_none
             (IsOther (Ok "<bpy_struct, Scene>"%string)) img_640_480
             (session landscape) eq_refl).
Defined.

(** C7 (as stated) fails. An object of neither kind whose [__str__]
    raises makes the f-string of the report raise, and the exception
    leaves the converter; so does the exception of [print] for a source
    that formats well when standard output is closed. In both cases
    nothing is printed and no [None] comes back. *)
Lemma unrecognized_source_can_raise :
  bl2veraCamera unformattable img_640_480 (session landscape) =
    (Raise (OtherError "RuntimeError"), session landscape) /\
  bl2veraCamera (IsOther (Ok "<bpy_struct, Scene>"%string)) img_640_480
    (closed_output (session landscape)) =
    (Raise ValueError, closed_output (session landscape)).
Proof. split; reflexivity. Qed.

(* ================================================================== *)
(** ** The mesh converter *)

(** C3. Whenever the mesh converter returns a mesh (it does unless the UV
    layer is shorter than the vertex array), the positions it emitted are
    the raw [co] of the host vertices, in order, negated on all three
    axes, and the normals are the raw [normal] negated likewise. The world
    matrix of the object has no part in it: another world matrix gives the
    same outcome. Negating a triple twice gives the triple back, whatever
    its coordinates. *)
Theorem mesh_positions_and_normals_negated
    (bl_mesh : bpy.Object.t bpy.Mesh.t) (w : World) :
  match fst (bl2veraMesh bl_mesh w) with
  | Ok mesh =>
      gl.vertices mesh =
        map (fun v => neg3 (coords (bpy.MeshVertex.co v)))
            (bpy.Mesh.vertices (bpy.Object.data bl_mesh)) /\
      gl.normals mesh =
        map (fun v => neg3 (coords (bpy.MeshVertex.normal v)))
            (bpy.Mesh.vertices (bpy.Object.data bl_mesh))
  | Raise _ => uv_covers_vertices (bpy.Object.data bl_mesh) = false
  end /\
  (forall W : bpy.Matrix.t,
     bl2veraMesh (with_matrix_world bl_mesh W) w = bl2veraMesh bl_mesh w) /\
  (forall x y z : float,
     neg3 (x, y, z) = (fneg x, fneg y, fneg z) /\
     neg3 (neg3 (x, y, z)) = (x, y, z)).
Proof.
  split; [| split].
  - rewrite bl2veraMesh_run.
    destruct (uv_covers_vertices (bpy.Object.data bl_mesh)); simpl.
    + split; reflexivity.
    + reflexivity.
  - intros W. reflexivity.
  - intros x y z. split; [reflexivity | apply neg3_involutive].
Qed.

(** C5. Whenever the mesh converter returns a mesh, its index array is
    the three vertex indices of each triangle of the host's triangulation,
    triangle after triangle, each in the order the host gives them. A mesh
    whose triangulation is the single triangle (2, 0, 1) gives the index
    array 2, 0, 1. *)
Theorem mesh_indices_in_host_order
    (bl_mesh : bpy.Object.t bpy.Mesh.t) (w : World) :
  match fst (bl2veraMesh bl_mesh w) with
  | Ok mesh =>
      gl.indices mesh =
        flat_map triangle_indices
                 (bpy.Mesh.triangulation (bpy.Object.data bl_mesh)) /\
      (bpy.Mesh.triangulation (bpy.Object.data bl_mesh) = [triangle_2_0_1] ->
       gl.indices mesh = [2; 0; 1]%Z)
  | Raise _ => uv_covers_vertices (bpy.Object.data bl_mesh) = false
  end.
Proof.
  rewrite bl2veraMesh_run.
  destruct (uv_covers_vertices (bpy.Object.data bl_mesh)); simpl.
  - split; [reflexivity |]. intros ->. reflexivity.
  - reflexivity.
Qed.

(** The textured triangle (2, 0, 1). *)
Lemma mesh_indices_in_host_order_witness :
  exists mesh,
    bl2veraMesh (mesh_object textured_triangle) (session landscape) =
      (Ok mesh, session landscape) /\
    gl.indices mesh = [2; 0; 1]%Z.
Proof.
  exists (converted_mesh textured_triangle).
  split; [reflexivity |].
  exact (proj2 (mesh_indices_in_host_order (mesh_object textured_triangle)
                  (session landscape)) eq_refl).
Defined.




(** C10. A mesh without an active UV layer is always converted: the mesh
    comes back with no texcoord and without the tangent computation, and
    with the positions, normals and indices that the same mesh yields
    with any UV layer that lets the conversion return. *)
Theorem mesh_without_uv_layer
    (bl_mesh : bpy.Object.t bpy.Mesh.t) (w : World) :
  bpy.Mesh.uv_layers_active (bpy.Object.data bl_mesh) = None ->
  exists mesh,
    bl2veraMesh bl_mesh w = (Ok mesh, w) /\
    gl.texcoords mesh = [] /\
    gl.tangents_computed mesh = false /\
    gl.vertices mesh =
      map (fun v => neg3 (coords (bpy.MeshVertex.co v)))
          (bpy.Mesh.vertices (bpy.Object.data bl_mesh)) /\
    gl.normals mesh =
      map (fun v => neg3 (coords (bpy.MeshVertex.normal v)))
          (bpy.Mesh.vertices (bpy.Object.data bl_mesh)) /\
    gl.indices mesh =
      flat_map triangle_indices
               (bpy.Mesh.triangulation (bpy.Object.data bl_mesh)) /\
    forall (layer : bpy.MeshUVLoopLayer.t) (mesh' : gl.Mesh),
      fst (bl2veraMesh
             (with_data bl_mesh
                (with_uv_layer (bpy.Object.data bl_mesh) (Some layer))) w)
        = Ok mesh' ->
      gl.vertices mesh' = gl.vertices mesh /\
      gl.normals mesh' = gl.normals mesh /\
      gl.indices mesh' = gl.indices mesh.
Proof.
  intros Hnone.
  exists (converted_mesh (bpy.Object.data bl_mesh)).
  split.
  { rewrite bl2veraMesh_run. unfold uv_covers_vertices. rewrite Hnone.
    reflexivity. }
  unfold converted_mesh at 1 2. simpl. rewrite Hnone.
  repeat (split; [reflexivity |]).
  intros layer mesh' Hrun.
  rewrite bl2veraMesh_run in Hrun. simpl in Hrun.
  destruct (uv_covers_vertices _) in Hrun; simpl in Hrun; [| discriminate].
  injection Hrun as <-. repeat split.
Qed.

(** The triangle without a UV layer. *)
Lemma mesh_without_uv_layer_witness :
  exists mesh,
    bl2veraMesh (mesh_object bare_triangle) (session landscape) =
      (Ok mesh, session landscape) /\
    gl.texcoords mesh = [] /\
    gl.tangents_computed mesh = false /\
    gl.indices mesh = [2; 0; 1]%Z.
Proof.
  destruct (mesh_without_uv_layer (mesh_object bare_triangle)
              (session landscape) eq_refl)
    as [mesh [Hrun [Htex [Htan [_ [_ [Hidx _]]]]]]].
  exists mesh. repeat split; assumption.
Defined.

(* ================================================================== *)
(** ** The light converter *)

(** C4 (as amended). The position of the emitted light is the raw
    [location] of the host light negated on all three axes with the second
    and third coordinates exchanged: (-x, -z, -y). The call always returns
    and leaves the world alone, and the world matrix of the light has no
    part in it. *)
Theorem light_position_negated_and_permuted (D : Type)
    (bl_light : bpy.Object.t D) (w : World) :
  (exists light,
     bl2veraLight bl_light w = (Ok light, w) /\
     gl.position light =
       Some (fneg (bpy.Object.location bl_light).[0],
             fneg (bpy.Object.location bl_light).[2],
             fneg (bpy.Object.location bl_light).[1])) /\
  (forall W : bpy.Matrix.t,
     bl2veraLight (with_matrix_world bl_light W) w = bl2veraLight bl_light w).
Proof.
  split.
  - eexists. split; reflexivity.
  - intros W. reflexivity.
Qed.

(** C4 (as stated) fails. The light at (1, 2, 3) is emitted at
    (-1, -3, -2), not at (-1, -2, -3). *)
Lemma light_position_is_not_plain_negation :
  exists light,
    bl2veraLight point_light (session landscape) =
      (Ok light, session landscape) /\
    bpy.Object.location point_light = vector_of_Z 1 2 3 /\
    gl.position light =
      Some (float_of_Z (-1), float_of_Z (-3), float_of_Z (-2)) /\
    gl.position light <>
      Some (neg3 (coords (bpy.Object.location point_light))).
Proof.
  eexists. split; [reflexivity |]. split; [reflexivity |].
  split; [reflexivity |]. vm_compute. discriminate.
Qed.

(* ================================================================== *)
(** ** The file check *)

Lemma world_eta (w : World) :
  {| render := render w; abspath := abspath w;
     fs_open_error := fs_open_error w;
     stdout_error := stdout_error w;
     open_handles := open_handles w;
     stdout := stdout w |} = w.
Proof. destruct w; reflexivity. Qed.

(** C8. [file_exist] always returns a boolean and never raises. The
    boolean is [True] exactly when the path expansion returns a path and
    opening that path for reading succeeds; whatever exception the
    expansion or the open raises, the answer is [False]. After the call
    the world is as before: the handles open are those that were open. *)
Theorem file_exist_tells_whether_open_succeeds (filename : string)
    (w : World) :
  exists b : bool,
    file_exist filename w = (Ok b, w) /\
    (b = true <->
     exists path,
       abspath w filename = Ok path /\ fs_open_error w path = None) /\
    (forall e, abspath w filename = Raise e -> b = false) /\
    (forall path e,
       abspath w filename = Ok path -> fs_open_error w path = Some e ->
       b = false).
Proof.
  unfold file_exist, try_except, bind, bpy_path_abspath, open_r, close, ret.
  destruct (abspath w filename) as [path | e] eqn:Hexpand.
  - destruct (fs_open_error w path) as [e |] eqn:Hopen.
    + exists false. split; [reflexivity |]. split; [| split].
      * split; [discriminate |].
        intros [path' [Hpath Hnone]]. injection Hpath as <-. congruence.
      * reflexivity.
      * reflexivity.
    + exists true. split; [| split; [| split]].
      * cbv beta iota. cbn [open_handles render abspath fs_open_error stdout_error
               stdout].
        rewrite release_head, world_eta. reflexivity.
      * split; [| reflexivity]. intros _. exists path. split; [reflexivity | exact Hopen].
      * discriminate.
      * intros path' e Hpath Herr. injection Hpath as <-. congruence.
  - exists false. split; [reflexivity |]. split; [| split].
    + split; [discriminate |]. intros [path [Hpath _]]. discriminate.
    + reflexivity.
    + discriminate.
Qed.

(** The shader file that is there and one that is not. *)
Lemma file_exist_tells_whether_open_succeeds_witness :
  file_exist "/tmp/default.frag" (session landscape) =
    (Ok true, session landscape) /\
  file_exist "/tmp/missing.frag" (session landscape) =
    (Ok false, session landscape).
Proof.
  split.
  - destruct (file_exist_tells_whether_open_succeeds "/tmp/default.frag"
                (session landscape)) as [b [Hrun [[_ Htrue] _]]].
    rewrite Hrun. rewrite Htrue; [reflexivity |].
    exists "/tmp/default.frag"%string. split; reflexivity.
  - destruct (file_exist_tells_whether_open_succeeds "/tmp/missing.frag"
                (session landscape)) as [b [Hrun [_ [_ Hfalse]]]].
    rewrite Hrun.
    rewrite (Hfalse "/tmp/missing.frag"%string (OSError "ENOENT"));
      reflexivity.
Defined.

(* ================================================================== *)
(** ** Independence of the calls *)






(* ================================================================== *)
(** ** Further facts and worked examples *)

(** The viewport of the emitted camera is the pair handed in as
    [img_dims], and its scale is 0.5, whatever the source and the
    dimensions. *)
Theorem camera_viewport_and_scale (source : Source) (img_dims : tuple Z 2)
    (w : World) (vm pm : Mat4) :
  camera_reads source w vm pm ->
  exists cam,
    bl2veraCamera source img_dims w = (Ok (Some cam), w) /\
    gl.viewport cam = Some (img_dims.[0], img_dims.[1]) /\
    gl.scale cam = Some (binary64 1 (-1)).
Proof.
  intros Hreads. exists (converted_camera vm pm img_dims).
  split; [apply bl2veraCamera_run; exact Hreads |].
  split; reflexivity.
Qed.

(** The viewport at 640x480 in a portrait scene. *)
Lemma camera_viewport_and_scale_witness :
  exists cam,
    bl2veraCamera (IsRegionView3D viewport_region) img_640_480
      (session portrait) = (Ok (Some cam), session portrait) /\
    gl.viewport cam = Some (640%Z, 480%Z) /\
    gl.scale cam = Some (S754_finite false 4503599627370496 (-53)).
Proof.
  exact (camera_viewport_and_scale
           (source := IsRegionView3D viewport_region)
           img_640_480 (w := session portrait)
           (reads_region viewport_region (session portrait) eq_refl)).
Defined.

(** The mesh converter raises exactly when the active UV layer is shorter
    than the vertex array, and then it raises IndexError. *)
Theorem mesh_faults_on_short_uv_layer
    (bl_mesh : bpy.Object.t bpy.Mesh.t) (w : World) :
  (fst (bl2veraMesh bl_mesh w) = Raise IndexError <->
   uv_covers_vertices (bpy.Object.data bl_mesh) = false) /\
  (forall e, fst (bl2veraMesh bl_mesh w) = Raise e -> e = IndexError).
Proof.
  rewrite bl2veraMesh_run.
  destruct (uv_covers_vertices (bpy.Object.data bl_mesh)); simpl.
  - split; [split; discriminate | discriminate].
  - split; [split; reflexivity |]. intros e He. congruence.
Qed.

(** The loose vertices. *)
Lemma mesh_faults_on_short_uv_layer_witness :
  fst (bl2veraMesh (mesh_object loose_vertices) (session landscape)) =
    Raise IndexError.
Proof.
  exact (proj2 (proj1 (mesh_faults_on_short_uv_layer
                         (mesh_object loose_vertices) (session landscape)))
           eq_refl).
Defined.

Example negated_half_and_zero :
  fneg (binary64 1 (-1)) = binary64 (-1) (-1) /\
  fneg (float_of_Z 0) = S754_zero true /\
  fneg (fneg (binary64 (-3) (-2))) = binary64 (-3) (-2).
Proof. repeat split. Qed.

Example textured_triangle_converted :
  fst (bl2veraMesh (mesh_object textured_triangle) (session landscape)) =
  Ok {| gl.vertices :=
          [ (float_of_Z (-1), float_of_Z 2, S754_zero true);
            (binary64 (-1) (-1), S754_zero true, binary64 3 (-2));
            (float_of_Z (-3), float_of_Z (-4), float_of_Z (-5)) ];
        gl.normals :=
          [ (S754_zero true, S754_zero true, float_of_Z (-1));
            (S754_zero true, float_of_Z (-1), S754_zero true);
            (float_of_Z 1, S754_zero true, S754_zero true) ];
        gl.indices := [2; 0; 1]%Z;
        gl.texcoords :=
          [ (float_of_Z 0, float_of_Z 0);
            (float_of_Z 1, float_of_Z 0);
            (float_of_Z 0, float_of_Z 1) ];
        gl.tangents_computed := true |}.
Proof. vm_compute. reflexivity. Qed.

Example viewport_region_view_arguments :
  exists cam,
    fst (bl2veraCamera (IsRegionView3D viewport_region) img_640_480
           (session landscape)) = Ok (Some cam) /\
    gl.transform_args cam =
      Some (map float_of_Z [1; 0; 0; 0;  0; 0; 1; 0;  0; 1; 0; 0;
                            -1; -3; -2; 1]%Z) /\
    gl.projection_args cam =
      Some (map float_of_Z [1; 0; 0; 0;  0; 1; 0; 0;  0; 0; -1; -1;
                            0; 0; -2; 0]%Z).
Proof. eexists. repeat split. Qed.

(* ================================================================== *)
(** ** The camera converter: host faults and the relabelling *)

Lemma mat4_ext (m n : Mat4) :
  row_major m = row_major n -> m = n.
Proof.
  destruct m as [[a0 [a1 [a2 [a3 []]]]] [[b0 [b1 [b2 [b3 []]]]]
    [[c0 [c1 [c2 [c3 []]]]] [[d0 [d1 [d2 [d3 []]]]] []]]]].
  destruct n as [[a0' [a1' [a2' [a3' []]]]] [[b0' [b1' [b2' [b3' []]]]]
    [[c0' [c1' [c2' [c3' []]]]] [[d0' [d1' [d2' [d3' []]]]] []]]]].
  unfold row_major. simpl. intros H. injection H as -> -> -> -> -> -> -> ->
    -> -> -> -> -> -> -> ->. reflexivity.
Qed.

Lemma pair2_ext (d e : tuple Z 2) :
  d.[0] = e.[0] -> d.[1] = e.[1] -> d = e.
Proof.
  destruct d as [d0 [d1 []]], e as [e0 [e1 []]]. simpl.
  intros -> ->. reflexivity.
Qed.

(** When the camera converter raises, and what. Given its pair of image
    dimensions, it raises [e] exactly in these cases: on a viewport state,
    [view_matrix.inverted()] raises [e]; on a scene object,
    [matrix_world.inverted()] raises [e] or, when that returned,
    [calc_matrix_camera] raises [e]; on any other source, formatting the
    source for the report raises [e] or, when that returned, printing the
    report line raises [e]. Whenever it raises, nothing has been
    printed. *)
Theorem camera_raises_what_the_host_raises (source : Source)
    (img_dims : tuple Z 2) (w : World) (e : exn) :
  (fst (bl2veraCamera source img_dims w) = Raise e <->
   (exists rv,
      source = IsRegionView3D rv /\
      bpy.Matrix.inverted (bpy.RegionView3D.view_matrix rv) = Raise e) \/
   (exists (D : Type) (ob : bpy.Object.t D),
      source = IsObject ob /\
      (bpy.Matrix.inverted (bpy.Object.matrix_world ob) = Raise e \/
       exists vm,
         bpy.Matrix.inverted (bpy.Object.matrix_world ob) = Ok vm /\
         camera_projection ob w = Raise e)) \/
   (exists formatted,
      source = IsOther formatted /\
      (formatted = Raise e \/
       exists str,
         formatted = Ok str /\
         stdout_error w (report_line str) = Some e))) /\
  (fst (bl2veraCamera source img_dims w) = Raise e ->
   snd (bl2veraCamera source img_dims w) = w).
Proof.
  split; [split |].
  - destruct source as [rv | D ob | [str | e']];
      unfold bl2veraCamera, bind, host, bpy_context_scene_render,
        camera_projection, print.
    + destruct (bpy.Matrix.inverted (bpy.RegionView3D.view_matrix rv))
        as [vm | e'] eqn:Hinv; simpl; [discriminate |].
      intros H. left. exists rv. split; [reflexivity | congruence].
    + destruct (bpy.Matrix.inverted (bpy.Object.matrix_world ob))
        as [vm | e'] eqn:Hinv; simpl.
      * destruct (bpy.Object.calc_matrix_camera ob _ _ _ _)
          as [pm | e''] eqn:Hproj; simpl; [discriminate |].
        intros H. right. left. exists D, ob. split; [reflexivity |].
        right. exists vm. split; [exact Hinv | congruence].
      * intros H. right. left. exists D, ob. split; [reflexivity |].
        left. congruence.
    + fold (report_line str).
      destruct (stdout_error w (report_line str)) as [e' |] eqn:Hout;
        simpl; [| discriminate].
      intros H. right. right. exists (Ok str). split; [reflexivity |].
      right. exists str. split; [reflexivity | congruence].
    + simpl. intros H. right. right. exists (Raise e').
      split; [reflexivity |]. left. congruence.
  - intros [[rv [-> Hr]]
           | [[D [ob [-> [Hr | [vm [Hv Hr]]]]]]
             | [formatted [-> [-> | [str [-> Hr]]]]]]];
      unfold bl2veraCamera, bind, host, bpy_context_scene_render, print;
      unfold camera_projection, report_line in *.
    + rewrite Hr. reflexivity.
    + rewrite Hr. reflexivity.
    + rewrite Hv, Hr. reflexivity.
    + reflexivity.
    + rewrite Hr. reflexivity.
  - destruct source as [rv | D ob | [str | e']];
      unfold bl2veraCamera, bind, host, bpy_context_scene_render, print.
    + destruct (bpy.Matrix.inverted (bpy.RegionView3D.view_matrix rv));
        simpl; [discriminate | reflexivity].
    + destruct (bpy.Matrix.inverted (bpy.Object.matrix_world ob));
        simpl; [| reflexivity].
      destruct (bpy.Object.calc_matrix_camera ob _ _ _ _);
        simpl; [discriminate | reflexivity].
    + destruct (stdout_error w ("INVALID CAMERA SOURCE: " ++ str)%string);
        simpl; [reflexivity | discriminate].
    + simpl. reflexivity.
Qed.

(** The collapsed viewport: the ValueError of the host comes through. The
    scene camera: the TypeError of the projection call comes through. *)
Lemma camera_raises_what_the_host_raises_witness :
  bl2veraCamera (IsRegionView3D collapsed_region) img_640_480
    (session landscape) = (Raise ValueError, session landscape) /\
  fst (bl2veraCamera (IsObject scene_camera) img_640_480
         (session landscape)) = Raise TypeError.
Proof.
  assert (Hraise :
    fst (bl2veraCamera (IsRegionView3D collapsed_region) img_640_480
           (session landscape)) = Raise ValueError).
  { apply (proj2 (proj1 (camera_raises_what_the_host_raises
                           (IsRegionView3D collapsed_region) img_640_480
                           (session landscape) ValueError))).
    left. exists collapsed_region. split; reflexivity. }
  pose proof (proj2 (camera_raises_what_the_host_raises
                       (IsRegionView3D collapsed_region) img_640_480
                       (session landscape) ValueError) Hraise) as Hworld.
  split.
  - destruct (bl2veraCamera (IsRegionView3D collapsed_region) img_640_480
                (session landscape)) as [r w'].
    simpl in Hraise, Hworld. rewrite Hraise, Hworld. reflexivity.
  - apply (proj2 (proj1 (camera_raises_what_the_host_raises
                           (IsObject scene_camera) img_640_480
                           (session landscape) TypeError))).
    right. left. exists unit, scene_camera. split; [reflexivity |].
    right. exists translation_back. split; reflexivity.
Defined.

(** The emitted camera keeps everything it was built from: two
    conversions that return the same camera read the same view matrix and
    the same projection matrix and were given the same image size. *)
Theorem camera_determines_its_matrices
    (source1 source2 : Source) (dims1 dims2 : tuple Z 2) (w1 w2 : World)
    (vm1 pm1 vm2 pm2 : Mat4) :
  camera_reads source1 w1 vm1 pm1 ->
  camera_reads source2 w2 vm2 pm2 ->
  fst (bl2veraCamera source1 dims1 w1) = fst (bl2veraCamera source2 dims2 w2) ->
  vm1 = vm2 /\ pm1 = pm2 /\ dims1 = dims2.
Proof.
  intros H1 H2.
  rewrite (bl2veraCamera_run dims1 H1), (bl2veraCamera_run dims2 H2).
  simpl. intros Heq. injection Heq. intros.
  split; [| split].
  - apply mat4_ext. unfold row_major. simpl. congruence.
  - apply mat4_ext. unfold row_major. simpl. congruence.
  - apply pair2_ext; assumption.
Qed.

(** The same viewport converted while the scene renders landscape and
    while it renders portrait. *)
Lemma camera_determines_its_matrices_witness :
  translation_back = translation_back /\ perspective = perspective /\
  img_640_480 = img_640_480.
Proof.
  exact (camera_determines_its_matrices
           (source1 := IsRegionView3D viewport_region)
           (source2 := IsRegionView3D viewport_region)
           img_640_480 img_640_480
           (reads_region viewport_region (session landscape) eq_refl)
           (reads_region viewport_region (session portrait) eq_refl)
           eq_refl).
Defined.

(** The converter only relabels: the sixteen arguments of the view setter
    are the sixteen entries of the view matrix it read, each passed once,
    in another order, and likewise the sixteen arguments of the projection
    setter for the projection matrix. No entry is dropped, repeated or
    recomputed. *)
Theorem camera_arguments_rearrange_the_entries (source : Source)
    (img_dims : tuple Z 2) (w : World) (vm pm : Mat4) :
  camera_reads source w vm pm ->
  exists cam targs pargs,
    bl2veraCamera source img_dims w = (Ok (Some cam), w) /\
    gl.transform_args cam = Some targs /\
    gl.projection_args cam = Some pargs /\
    Permutation (row_major vm) targs /\
    Permutation (row_major pm) pargs.
Proof.
  intros Hreads.
  exists (converted_camera vm pm img_dims). eexists. eexists.
  split; [apply bl2veraCamera_run; exact Hreads |].
  split; [reflexivity |]. split; [reflexivity |].
  unfold row_major, column_rows_swapped, column. simpl.
  split; rearranged.
Qed.

(** The viewport with the translated view: -1, -2, -3 and the ones of the
    inverted matrix are all among the view arguments. *)
Lemma camera_arguments_rearrange_the_entries_witness :
  exists cam targs pargs,
    bl2veraCamera (IsRegionView3D viewport_region) img_640_480
      (session landscape) = (Ok (Some cam), session landscape) /\
    gl.transform_args cam = Some targs /\
    gl.projection_args cam = Some pargs /\
    Permutation (row_major translation_back) targs /\
    Permutation (row_major perspective) pargs.
Proof.
  exact (camera_arguments_rearrange_the_entries img_640_480
           (reads_region viewport_region (session landscape) eq_refl)).
Defined.

(** On a viewport state the converter reads nothing but its arguments:
    the outcome is the same in every world, whatever the render settings
    of the scene, and the world is left as it was. *)
Theorem viewport_conversion_ignores_the_scene (rv : bpy.RegionView3D.t)
    (img_dims : tuple Z 2) (w1 w2 : World) :
  fst (bl2veraCamera (IsRegionView3D rv) img_dims w1) =
  fst (bl2veraCamera (IsRegionView3D rv) img_dims w2) /\
  snd (bl2veraCamera (IsRegionView3D rv) img_dims w1) = w1.
Proof.
  unfold bl2veraCamera, bind, host.
  destruct (bpy.Matrix.inverted (bpy.RegionView3D.view_matrix rv));
    split; reflexivity.
Qed.

(* ================================================================== *)
(** ** The mesh converter: array sizes, indices and the UV prefix *)

Lemma flat_map_triangle_indices_length (ts : list bpy.MeshLoopTriangle.t) :
  List.length (flat_map triangle_indices ts) = 3 * List.length ts.
Proof.
  induction ts as [| tri ts IH]; simpl; [reflexivity |].
  rewrite IH. lia.
Qed.

(** The arrays of a returned mesh fit together: as many normals as
    vertices, both as many as the host mesh has vertices; three indices
    per triangle of the host's triangulation; and either no texcoord or
    one per vertex. *)
Theorem mesh_arrays_fit_together
    (bl_mesh : bpy.Object.t bpy.Mesh.t) (w : World) (mesh : gl.Mesh) :
  fst (bl2veraMesh bl_mesh w) = Ok mesh ->
  gl.getVerticesTotal mesh =
    List.length (bpy.Mesh.vertices (bpy.Object.data bl_mesh)) /\
  List.length (gl.normals mesh) = gl.getVerticesTotal mesh /\
  List.length (gl.indices mesh) =
    3 * List.length (bpy.Mesh.triangulation (bpy.Object.data bl_mesh)) /\
  (List.length (gl.texcoords mesh) = 0 \/
   List.length (gl.texcoords mesh) = gl.getVerticesTotal mesh).
Proof.
  rewrite bl2veraMesh_run. simpl.
  destruct (uv_covers_vertices (bpy.Object.data bl_mesh)) eqn:Hcov;
    [| discriminate].
  intros Hmesh. injection Hmesh as <-.
  unfold gl.getVerticesTotal, converted_mesh. simpl.
  rewrite !length_map.
  split; [reflexivity |]. split; [reflexivity |].
  split; [apply flat_map_triangle_indices_length |].
  unfold uv_covers_vertices in Hcov.
  destruct (bpy.Mesh.uv_layers_active (bpy.Object.data bl_mesh))
    as [active |]; [| left; reflexivity].
  right. apply Nat.leb_le in Hcov.
  rewrite length_map, length_firstn. lia.
Qed.

(** The textured triangle: three of each, and three indices. *)
Lemma mesh_arrays_fit_together_witness :
  gl.getVerticesTotal (converted_mesh textured_triangle) = 3 /\
  List.length (gl.normals (converted_mesh textured_triangle)) =
    gl.getVerticesTotal (converted_mesh textured_triangle) /\
  List.length (gl.indices (converted_mesh textured_triangle)) = 3 * 1 /\
  (List.length (gl.texcoords (converted_mesh textured_triangle)) = 0 \/
   List.length (gl.texcoords (converted_mesh textured_triangle)) =
     gl.getVerticesTotal (converted_mesh textured_triangle)).
Proof.
  exact (mesh_arrays_fit_together (mesh_object textured_triangle)
           (session landscape) eq_refl).
Defined.

(** The converter passes indices through unchecked, so the index array is
    as good as the host's triangles: when every index of every host
    triangle lies within the host's vertex array, every emitted index lies
    within the emitted vertex array; and an index of a host triangle,
    whatever its value, is among the emitted ones. *)
Theorem mesh_indices_stay_in_range
    (bl_mesh : bpy.Object.t bpy.Mesh.t) (w : World) (mesh : gl.Mesh) :
  fst (bl2veraMesh bl_mesh w) = Ok mesh ->
  (forall tri (k : index 3),
     In tri (bpy.Mesh.triangulation (bpy.Object.data bl_mesh)) ->
     In (bpy.MeshLoopTriangle.vertices tri).[k] (gl.indices mesh)) /\
  ((forall tri (k : index 3),
      In tri (bpy.Mesh.triangulation (bpy.Object.data bl_mesh)) ->
      (0 <= (bpy.MeshLoopTriangle.vertices tri).[k]
       < Z.of_nat (List.length (bpy.Mesh.vertices (bpy.Object.data bl_mesh))))%Z) ->
   Forall (fun i => (0 <= i < Z.of_nat (gl.getVerticesTotal mesh))%Z)
          (gl.indices mesh)).
Proof.
  rewrite bl2veraMesh_run. simpl.
  destruct (uv_covers_vertices (bpy.Object.data bl_mesh)); [| discriminate].
  intros Hmesh. injection Hmesh as <-.
  unfold gl.getVerticesTotal, converted_mesh. simpl. rewrite length_map.
  split.
  - intros tri k Hin. apply in_flat_map. exists tri. split; [exact Hin |].
    unfold triangle_indices.
    destruct k as [[[[] | ] | ] | ]; simpl; auto.
  - intros Hrange. apply Forall_forall. intros i Hi.
    apply in_flat_map in Hi. destruct Hi as [tri [Hin Hi]].
    unfold triangle_indices in Hi. simpl in Hi.
    destruct Hi as [<- | [<- | [<- | []]]].
    + exact (Hrange tri 0%index Hin).
    + exact (Hrange tri 1%index Hin).
    + exact (Hrange tri 2%index Hin).
Qed.

(** The triangle (2, 0, 1) over three vertices. *)
Lemma mesh_indices_stay_in_range_witness :
  Forall (fun i => (0 <= i < Z.of_nat
                     (gl.getVerticesTotal (converted_mesh bare_triangle)))%Z)
         (gl.indices (converted_mesh bare_triangle)).
Proof.
  refine (proj2 (mesh_indices_stay_in_range (mesh_object bare_triangle)
                   (session landscape) eq_refl) _).
  intros tri k [<- | []].
  destruct k as [[[[] | ] | ] | ]; simpl; lia.
Defined.

(** Only the first N corners of the UV layer count, N being the number of
    vertices: two layers that agree on their first N entries give the same
    outcome, so corners past the vertex count are never emitted. *)
Theorem mesh_reads_the_uv_prefix_only
    (bl_mesh : bpy.Object.t bpy.Mesh.t)
    (layer1 layer2 : bpy.MeshUVLoopLayer.t) (w : World) :
  firstn (List.length (bpy.Mesh.vertices (bpy.Object.data bl_mesh)))
         (bpy.MeshUVLoopLayer.data layer1) =
  firstn (List.length (bpy.Mesh.vertices (bpy.Object.data bl_mesh)))
         (bpy.MeshUVLoopLayer.data layer2) ->
  bl2veraMesh
    (with_data bl_mesh (with_uv_layer (bpy.Object.data bl_mesh) (Some layer1)))
    w =
  bl2veraMesh
    (with_data bl_mesh (with_uv_layer (bpy.Object.data bl_mesh) (Some layer2)))
    w.
Proof.
  intros Hprefix. rewrite !bl2veraMesh_run.
  unfold uv_covers_vertices, converted_mesh. simpl.
  rewrite Hprefix.
  assert (Hlen :
    Nat.min (List.length (bpy.Mesh.vertices (bpy.Object.data bl_mesh)))
            (List.length (bpy.MeshUVLoopLayer.data layer1)) =
    Nat.min (List.length (bpy.Mesh.vertices (bpy.Object.data bl_mesh)))
            (List.length (bpy.MeshUVLoopLayer.data layer2))).
  { rewrite <- !length_firstn. rewrite Hprefix. reflexivity. }
  destruct (Nat.leb_spec
              (List.length (bpy.Mesh.vertices (bpy.Object.data bl_mesh)))
              (List.length (bpy.MeshUVLoopLayer.data layer1)));
    destruct (Nat.leb_spec
                (List.length (bpy.Mesh.vertices (bpy.Object.data bl_mesh)))
                (List.length (bpy.MeshUVLoopLayer.data layer2)));
    try reflexivity; lia.
Qed.

(** The triangle with three corners and with five: the same mesh. *)
Lemma mesh_reads_the_uv_prefix_only_witness :
  bl2veraMesh
    (with_data (mesh_object bare_triangle)
       (with_uv_layer bare_triangle (Some three_corner_layer)))
    (session landscape) =
  bl2veraMesh
    (with_data (mesh_object bare_triangle)
       (with_uv_layer bare_triangle (Some overlong_layer)))
    (session landscape).
Proof.
  exact (mesh_reads_the_uv_prefix_only (mesh_object bare_triangle)
           three_corner_layer overlong_layer (session landscape) eq_refl).
Defined.

(** A mesh without vertices is always converted, with or without a UV
    layer and however short that layer is: the UV loop has nothing to
    subscript. The mesh that comes back has no vertex, normal or texcoord,
    and the tangent computation has been triggered exactly when there is a
    UV layer. *)
Theorem empty_mesh_is_converted
    (bl_mesh : bpy.Object.t bpy.Mesh.t) (w : World) :
  bpy.Mesh.vertices (bpy.Object.data bl_mesh) = [] ->
  exists mesh,
    bl2veraMesh bl_mesh w = (Ok mesh, w) /\
    gl.vertices mesh = [] /\
    gl.normals mesh = [] /\
    gl.texcoords mesh = [] /\
    (gl.tangents_computed mesh = true <->
     bpy.Mesh.uv_layers_active (bpy.Object.data bl_mesh) <> None).
Proof.
  intros Hempty. exists (converted_mesh (bpy.Object.data bl_mesh)).
  rewrite bl2veraMesh_run.
  unfold uv_covers_vertices, converted_mesh. simpl. rewrite Hempty. simpl.
  destruct (bpy.Mesh.uv_layers_active (bpy.Object.data bl_mesh))
    as [active |]; simpl.
  - repeat split; try reflexivity. discriminate.
  - repeat split; try reflexivity; try discriminate.
    intros H. exfalso. apply H. reflexivity.
Qed.

(** The mesh with an empty UV layer and no vertex. *)
Lemma empty_mesh_is_converted_witness :
  exists mesh,
    bl2veraMesh (mesh_object empty_mesh) (session landscape) =
      (Ok mesh, session landscape) /\
    gl.vertices mesh = [] /\
    gl.normals mesh = [] /\
    gl.texcoords mesh = [] /\
    (gl.tangents_computed mesh = true <->
     bpy.Mesh.uv_layers_active empty_mesh <> None).
Proof.
  exact (empty_mesh_is_converted (mesh_object empty_mesh) (session landscape)
           eq_refl).
Defined.

(* ================================================================== *)
(** ** The light converter against itself and against the mesh converter *)

Lemma fneg_injective (a b : float) : fneg a = fneg b -> a = b.
Proof.
  intros H. rewrite <- (fneg_involutive a), <- (fneg_involutive b), H.
  reflexivity.
Qed.

(** The light mapping undoes itself: a light placed at the position the
    converter emitted is emitted at the location the first light had. *)
Theorem light_conversion_is_an_involution (D : Type)
    (bl_light : bpy.Object.t D) (w : World) :
  exists light x y z,
    bl2veraLight bl_light w = (Ok light, w) /\
    gl.position light = Some (x, y, z) /\
    exists light',
      bl2veraLight (with_location bl_light (triple x y z)) w = (Ok light', w) /\
      gl.position light' = Some (coords (bpy.Object.location bl_light)).
Proof.
  eexists. eexists. eexists. eexists.
  split; [reflexivity |]. split; [reflexivity |].
  eexists. split; [reflexivity |].
  destruct (bpy.Object.location bl_light) as [a [b [c []]]].
  unfold coords. simpl. rewrite !fneg_involutive. reflexivity.
Qed.

(** A light and a mesh vertex with the same local coordinates are emitted
    at the same position exactly when their second and third coordinates
    are equal: the light converter exchanges the two, the mesh converter
    does not. *)
Theorem light_and_vertex_agree_on_the_diagonal_only (D : Type)
    (bl_light : bpy.Object.t D) (bl_mesh : bpy.Object.t bpy.Mesh.t)
    (w : World) (light : gl.Light) (mesh : gl.Mesh)
    (i : nat) (v : bpy.MeshVertex.t) :
  fst (bl2veraLight bl_light w) = Ok light ->
  fst (bl2veraMesh bl_mesh w) = Ok mesh ->
  nth_error (bpy.Mesh.vertices (bpy.Object.data bl_mesh)) i = Some v ->
  bpy.MeshVertex.co v = bpy.Object.location bl_light ->
  (gl.position light = nth_error (gl.vertices mesh) i <->
   (bpy.Object.location bl_light).[1] = (bpy.Object.location bl_light).[2]).
Proof.
  intros Hlight Hmesh Hnth Hco.
  unfold bl2veraLight, ret in Hlight. simpl in Hlight.
  injection Hlight as <-.
  rewrite bl2veraMesh_run in Hmesh. simpl in Hmesh.
  destruct (uv_covers_vertices (bpy.Object.data bl_mesh)); [| discriminate].
  injection Hmesh as <-.
  unfold converted_mesh. simpl.
  rewrite nth_error_map, Hnth. simpl. rewrite Hco.
  destruct (bpy.Object.location bl_light) as [a [b [c []]]].
  unfold coords. simpl. split.
  - intros H. injection H as Hc Hb. apply fneg_injective. congruence.
  - intros ->. reflexivity.
Qed.

(** The light at (1, 2, 3) against a vertex at the same coordinates. *)
Lemma light_and_vertex_agree_on_the_diagonal_only_witness :
  (gl.position {| gl.position :=
                    Some (float_of_Z (-1), float_of_Z (-3), float_of_Z (-2)) |}
   = nth_error (gl.vertices (converted_mesh vertex_at_light)) 0 <->
   float_of_Z 2 = float_of_Z 3).
Proof.
  exact (light_and_vertex_agree_on_the_diagonal_only
           (bl_light := point_light) (w := session landscape)
           (mesh_object vertex_at_light) 0 eq_refl eq_refl eq_refl eq_refl).
Defined.
